(** * neurokit2.rsp.rsp_intervalrelated: interval-related respiration features

    A shallow embedding of [src/neurokit2/rsp/rsp_intervalrelated.py].

    The Python function dispatches on the run-time type of [data]:
    a [pandas.DataFrame] (one recording) or a [dict] of DataFrames (a
    collection of epochs).  The embedding keeps

    - the order of the statements, hence the order in which validations
      fail and in which the accumulator [intervals] receives its keys;
    - Python exceptions, as values of [exn] carried by a [result];
    - the two pieces of state that outlive a call: the log of calls made to
      the collaborator [rsp_rrv], and the dictionary object that Python
      creates once for the default argument [output={}] of
      [_rsp_intervalrelated_formatinput].

    Floating point is not interpreted: the scalar type, numpy's [mean] and
    Python's [float] are parameters of the development, and so is the
    collaborator [rsp_rrv], which lives in another module. *)

From Stdlib Require Import String List Bool Arith ZArith Lia QArith Qreduction.
From Stdlib Require Import DecimalString.
Import ListNotations.

Local Close Scope Q_scope.
Local Open Scope string_scope.
Local Open Scope list_scope.

(** ** Python values shared by every instance *)

(** The exceptions this module can let escape.  [ValueError] is the one it
    raises itself; [KeyError] comes from a failed [obj[key]];
    [UnboundLocalError] from reading a local that no branch assigned;
    [OtherError] stands for anything else the collaborator may raise. *)
Inductive exn : Type :=
| ValueError (msg : string)
| KeyError (key : string)
| UnboundLocalError (name : string)
| OtherError (cls msg : string).

Inductive result (A : Type) : Type :=
| Return (a : A)
| Raise (e : exn).
Arguments Return {A} a.
Arguments Raise {A} e.

(** Row and column labels of a pandas table: integers or strings. *)
Inductive label : Type :=
| LInt (z : Z)
| LStr (s : string).

(** [str(x)] on a label, as [add_prefix] applies it. *)
Definition label_str (l : label) : string :=
  match l with
  | LInt z => NilZero.string_of_int (Z.to_int z)
  | LStr s => s
  end.

(** [needle in hay] on Python strings: substring test. *)
Fixpoint str_in (needle hay : string) : bool :=
  String.prefix needle hay ||
  match hay with
  | EmptyString => false
  | String _ rest => str_in needle rest
  end.

(** ** Python dictionaries

    Insertion ordered, keys unique: an association list that [dict_set]
    keeps free of duplicate keys. *)
Definition pydict (A : Type) : Type := list (string * A).

Definition dict_keys {A} (d : pydict A) : list string := map fst d.
Definition dict_values {A} (d : pydict A) : list A := map snd d.

Fixpoint dict_get {A} (d : pydict A) (k : string) : option A :=
  match d with
  | [] => None
  | (k', v) :: rest => if String.eqb k' k then Some v else dict_get rest k
  end.

(** [d[k] = v]: overwrite in place when the key is there, else append. *)
Fixpoint dict_set {A} (d : pydict A) (k : string) (v : A) : pydict A :=
  match d with
  | [] => [(k, v)]
  | (k', v') :: rest =>
      if String.eqb k' k then (k', v) :: rest else (k', v') :: dict_set rest k v
  end.

(** ** Matrices as lists of rows *)

Definition heads {A} (rows : list (list A)) : list A :=
  flat_map (fun r => match r with [] => [] | x :: _ => [x] end) rows.

Definition tails {A} (rows : list (list A)) : list (list A) :=
  map (@tl A) rows.

(** Transpose of a matrix with [c] columns. *)
Fixpoint transpose {A} (c : nat) (rows : list (list A)) : list (list A) :=
  match c with
  | O => []
  | S c' => heads rows :: transpose c' (tails rows)
  end.

(** Keys in order of first appearance. *)
Fixpoint first_seen (seen : list string) (ks : list string) : list string :=
  match ks with
  | [] => []
  | k :: rest =>
      if existsb (String.eqb k) seen then first_seen seen rest
      else k :: first_seen (k :: seen) rest
  end.

(** The literal messages of the four [raise ValueError(...)] statements
    (adjacent string literals are concatenated without a separator). *)
Definition rate_error : string :=
  "NeuroKit error: rsp_intervalrelated(): Wrong" ++
  "input, we couldn't extract breathing rate." ++
  "Please make sure your DataFrame" ++
  "contains an `RSP_Rate` column.".

Definition amplitude_error : string :=
  "NeuroKit error: rsp_intervalrelated(): Wrong" ++
  "input, we couldn't extract respiratory amplitude." ++
  "Please make sure your DataFrame" ++
  "contains an `RSP_Amplitude` column.".

Definition formatinput_amplitude_error : string :=
  "NeuroKit error: rsp_intervalrelated(): Wrong" ++
  "input we couldn't extract respiratory amplitude." ++
  "Please make sure your DataFrame" ++
  "contains an `RSP_Amplitude` column.".

(** The fifteen variability metrics, in the order the source copies them. *)
Definition RRV_METRICS : list string :=
  ["SDBB"; "RMSSD"; "SDSD"; "VLF"; "LF"; "HF"; "LFHF"; "LFn"; "HFn";
   "SD1"; "SD2"; "SD2SD1"; "ApEn"; "SampEn"; "DFA"].

(** The names under which the source reads and stores them. *)
Definition RRV_COLUMNS : list string := map (append "RRV_") RRV_METRICS.

Definition default_sampling_rate : Z := 1000.

(** The column names of the table built from one recording, in order. *)
Definition single_columns : list label :=
  map LStr
      ("RSP_Rate_Mean" :: map (append "RSP_RRV_") RRV_METRICS
                       ++ ["RSP_Amplitude_Mean"]).

(** ** Interfaces to numpy and to the collaborator *)

(** float64 scalars: the value pandas writes into a missing cell, and
    [numpy.mean] of the elements of an array, given in C order. *)
Class Float64 : Type := {
  float64 : Type;
  nan : float64;
  mean : list float64 -> float64
}.

Section Model.

Context {num : Float64}.

(** ** Recordings *)

(** A recording: named columns in order, each with its per-sample
    values.  Names may repeat, as pandas allows. *)
Definition Column : Type := (string * list float64)%type.
Definition DataFrame : Type := list Column.

(** [data.columns] *)
Definition columns_of (data : DataFrame) : list string := map fst data.

(** [data[name]]: [None] when no column bears the name (pandas raises
    [KeyError]); otherwise the selected columns, one for a Series and
    several for the sub-frame pandas returns on a repeated name. *)
Definition getitem (data : DataFrame) (name : string)
  : option (list (list float64)) :=
  match filter (fun c => String.eqb (fst c) name) data with
  | [] => None
  | sel => Some (map snd sel)
  end.

(** [.values], flattened in C order: a Series gives its values; a
    sub-frame gives its rows one after the other. *)
Definition values (sel : list (list float64)) : list float64 :=
  match sel with
  | [c] => c
  | _ => concat (transpose (length (hd [] sel)) sel)
  end.

(** The columns whose name contains [frag], with their values: what the
    comprehension [[col for col in data.columns if frag in col]]
    selects. *)
Definition matching (frag : string) (data : DataFrame) : list Column :=
  filter (fun c => str_in frag (fst c)) data.

(** The collaborator [rsp_rrv(data, sampling_rate=...)], imported from
    [.rsp_rrv]: it raises, or returns a one-row table, read here as a
    mapping from column name to cell; [float] is Python's [float] on
    such a cell.  It is a function of its arguments: it neither keeps
    state nor changes the recording it is given. *)
Class Collaborator : Type := {
  V : Type;
  float : V -> float64;
  rsp_rrv : DataFrame -> Z -> result (pydict V)
}.

Context {rrv_impl : Collaborator}.

(** ** State and control *)

(** What persists between calls. *)
Record world : Type := mkWorld {
  rrv_calls : list (DataFrame * Z);
  formatinput_default : pydict float64
}.

Definition M (A : Type) : Type := world -> world * result A.

Definition ret {A} (a : A) : M A := fun w => (w, Return a).
Definition raise {A} (e : exn) : M A := fun w => (w, Raise e).
Definition bind {A B} (m : M A) (k : A -> M B) : M B :=
  fun w =>
    match m w with
    | (w', Return a) => k a w'
    | (w', Raise e) => (w', Raise e)
    end.

Notation "x <- m ;; k" := (bind m (fun x => k))
  (at level 61, m at next level, right associativity).

(** [obj[key]] on a value that may lack the key. *)
Definition subscript {A} (o : option A) (key : string) : M A :=
  match o with
  | Some a => ret a
  | None => raise (KeyError key)
  end.

(** The world once one more call to the collaborator is on record. *)
Definition logged (w : world) (data : DataFrame) (sampling_rate : Z)
  : world :=
  mkWorld (rrv_calls w ++ [(data, sampling_rate)]) (formatinput_default w).

(** The call [rsp_rrv(data, sampling_rate=sampling_rate)]. *)
Definition call_rsp_rrv (data : DataFrame) (sampling_rate : Z)
  : M (pydict V) :=
  fun w => (logged w data sampling_rate, rsp_rrv data sampling_rate).

(** ** Result tables *)

(** A pandas table: row labels, column labels, cells by row. *)
Record ResultTable : Type := mkTable {
  index : list label;
  columns : list label;
  cells : list (list float64)
}.

(** [pd.DataFrame.from_dict(d, orient="index")] on a dict of scalars:
    one row per key, a single column labelled [0]. *)
Definition from_dict_index_scalars (d : pydict float64) : ResultTable :=
  mkTable (map LStr (dict_keys d)) [LInt 0]
          (map (fun v => [v]) (dict_values d)).

(** The same on a dict of dicts: one row per outer key, the columns are
    the inner keys in order of first appearance, absent cells are NaN. *)
Definition from_dict_index_nested (d : pydict (pydict float64))
  : ResultTable :=
  let cols :=
    first_seen [] (concat (map (@dict_keys float64) (dict_values d))) in
  mkTable
    (map LStr (dict_keys d))
    (map LStr cols)
    (map (fun row =>
            map (fun c => match dict_get row c with
                          | Some v => v
                          | None => nan
                          end) cols)
         (dict_values d)).

(** [.T] *)
Definition T (t : ResultTable) : ResultTable :=
  mkTable (columns t) (index t) (transpose (length (columns t)) (cells t)).

(** [.add_prefix(p)] *)
Definition add_prefix (p : string) (t : ResultTable) : ResultTable :=
  mkTable (index t) (map (fun c => LStr (p ++ label_str c)) (columns t))
          (cells t).


(** ** The source functions *)

(** One statement [intervals[k] = float(rrv[k])]. *)
Definition copy_float (rrv : pydict V) (k : string) (intervals : pydict float64)
  : M (pydict float64) :=
  v <- subscript (dict_get rrv k) k ;;
  ret (dict_set intervals k (float v)).

(** The fifteen copy statements of the source, as a loop over the
    names; [single_recording] below spells them out as the source does. *)
Fixpoint copy_all (rrv : pydict V) (keys : list string)
    (intervals : pydict float64) : M (pydict float64) :=
  match keys with
  | [] => ret intervals
  | k :: rest =>
      intervals <- copy_float rrv k intervals ;;
      copy_all rrv rest intervals
  end.

(** [k] is not a column of the collaborator's table. *)
Definition lacks (rrv : pydict V) (k : string) : bool :=
  match dict_get rrv k with
  | Some _ => false
  | None => true
  end.

(** [float(rrv[k])] when the column is there. *)
Definition metric (rrv : pydict V) (k : string) : float64 :=
  match dict_get rrv k with
  | Some v => float v
  | None => nan
  end.

(** The parameter [output={}] of [_rsp_intervalrelated_formatinput]:
    [Some o] is a dictionary the caller passes; [None] is the argument
    left out, in which case Python binds [output] to the one dictionary
    built when the function was defined, kept in the [world]. *)
Definition load_output (output : option (pydict float64))
  : M (pydict float64) :=
  fun w =>
    match output with
    | Some o => (w, Return o)
    | None => (w, Return (formatinput_default w))
    end.

(** The two assignments into [output] write through to that shared
    dictionary when it is the one in use.  A dictionary passed by the
    caller is returned updated: the only caller rebinds its own
    reference to the returned object. *)
Definition store_output (output : option (pydict float64)) (o : pydict float64)
  : M (pydict float64) :=
  fun w =>
    match output with
    | Some _ => (w, Return o)
    | None => (mkWorld (rrv_calls w) o, Return o)
    end.

Definition _rsp_intervalrelated_formatinput
    (interval : DataFrame) (output : option (pydict float64))
  : M (pydict float64) :=
  let colnames := columns_of interval in
  if Nat.eqb (length (filter (str_in "RSP_Rate") colnames)) 0 then
    raise (ValueError rate_error)
  else if Nat.eqb (length (filter (str_in "RSP_Amplitude") colnames)) 0 then
    raise (ValueError formatinput_amplitude_error)
  else
    rate <- subscript (getitem interval "RSP_Rate") "RSP_Rate" ;;
    amplitude <-
      subscript (getitem interval "RSP_Amplitude") "RSP_Amplitude" ;;
    out <- load_output output ;;
    let out := dict_set out "RSP_Rate_Mean" (mean (values rate)) in
    let out := dict_set out "RSP_Amplitude_Mean" (mean (values amplitude)) in
    store_output output out.

(** What [data] may be bound to at run time. *)
Inductive pyobj : Type :=
| PyDataFrame (data : DataFrame)
| PyDict (data : pydict DataFrame)
| PyOther (repr : string).

(** The body of [for index in data:] over the keys still to visit. *)
Fixpoint for_index (data : pydict DataFrame) (keys : list string)
    (intervals : pydict (pydict float64)) : M (pydict (pydict float64)) :=
  match keys with
  | [] => ret intervals
  | index :: rest =>
      let intervals := dict_set intervals index [] in
      interval <- subscript (dict_get data index) index ;;
      output <- subscript (dict_get intervals index) index ;;
      row <- _rsp_intervalrelated_formatinput interval (Some output) ;;
      let intervals := dict_set intervals index row in
      for_index data rest intervals
  end.

(** The branch [isinstance(data, pd.DataFrame)]. *)
Definition single_recording (data : DataFrame) (sampling_rate : Z)
    (intervals : pydict float64) : M ResultTable :=
  let rate_cols := filter (str_in "RSP_Rate") (columns_of data) in
  intervals <-
    (if Nat.eqb (length rate_cols) 1 then
       let c := nth 0 rate_cols "" in
       rate <- subscript (getitem data c) c ;;
       let intervals := dict_set intervals "Rate_Mean" (mean (values rate)) in
       rrv <- call_rsp_rrv data sampling_rate ;;
       intervals <- copy_float rrv "RRV_SDBB" intervals ;;
       intervals <- copy_float rrv "RRV_RMSSD" intervals ;;
       intervals <- copy_float rrv "RRV_SDSD" intervals ;;
       intervals <- copy_float rrv "RRV_VLF" intervals ;;
       intervals <- copy_float rrv "RRV_LF" intervals ;;
       intervals <- copy_float rrv "RRV_HF" intervals ;;
       intervals <- copy_float rrv "RRV_LFHF" intervals ;;
       intervals <- copy_float rrv "RRV_LFn" intervals ;;
       intervals <- copy_float rrv "RRV_HFn" intervals ;;
       intervals <- copy_float rrv "RRV_SD1" intervals ;;
       intervals <- copy_float rrv "RRV_SD2" intervals ;;
       intervals <- copy_float rrv "RRV_SD2SD1" intervals ;;
       intervals <- copy_float rrv "RRV_ApEn" intervals ;;
       intervals <- copy_float rrv "RRV_SampEn" intervals ;;
       intervals <- copy_float rrv "RRV_DFA" intervals ;;
       ret intervals
     else
       raise (ValueError rate_error)) ;;
  let amp_cols := filter (str_in "RSP_Amplitude") (columns_of data) in
  intervals <-
    (if Nat.eqb (length amp_cols) 1 then
       let c := nth 0 amp_cols "" in
       amplitude <- subscript (getitem data c) c ;;
       ret (dict_set intervals "Amplitude_Mean" (mean (values amplitude)))
     else
       raise (ValueError amplitude_error)) ;;
  ret (add_prefix "RSP_" (T (from_dict_index_scalars intervals))).

(** The branch [isinstance(data, dict)]. *)
Definition recording_collection (data : pydict DataFrame)
    (intervals : pydict (pydict float64)) : M ResultTable :=
  intervals <- for_index data (dict_keys data) intervals ;;
  ret (from_dict_index_nested intervals).

(** [rsp_intervalrelated(data, sampling_rate)].  [intervals = {}] is the
    empty dictionary each branch starts from (it holds scalars in the
    first branch and dictionaries in the second).  The local
    [rsp_intervals] is bound by the two branches only; the final
    [return rsp_intervals] reads it. *)
Definition rsp_intervalrelated (data : pyobj) (sampling_rate : Z)
  : M ResultTable :=
  rsp_intervals <-
    match data with
    | PyDataFrame data =>
        t <- single_recording data sampling_rate [] ;; ret (Some t)
    | PyDict data =>
        t <- recording_collection data [] ;; ret (Some t)
    | PyOther _ => ret None
    end ;;
  match rsp_intervals with
  | Some t => ret t
  | None => raise (UnboundLocalError "rsp_intervals")
  end.

(** A recording that has a column named [RSP_Rate] and a column named
    [RSP_Amplitude], the two the helper reads by name. *)
Definition exact_columns (interval : DataFrame) : Prop :=
  In "RSP_Rate" (columns_of interval) /\
  In "RSP_Amplitude" (columns_of interval).

(** The sample lists of the columns named exactly [name], in the order
    of the columns: what [data[name]] selects. *)
Definition named (name : string) (data : DataFrame) : list (list float64) :=
  map snd (filter (fun c => String.eqb (fst c) name) data).

(** Every column has the same number of samples, as in any DataFrame. *)
Definition rectangular (data : DataFrame) : Prop :=
  exists n, Forall (fun c => length (snd c) = n) data.

(** The samples of a block of columns read row by row: sample 0 of every
    column, then sample 1 of every column, and so on; for one column,
    its samples in order.  Written without [values] and [transpose], to
    state against them what the code computes. *)
Definition row_major (cols : list (list float64)) : list float64 :=
  flat_map (fun i => map (fun c => nth i c nan) cols)
           (seq 0 (length (hd [] cols))).

End Model.

(** ** An exact instance, for running the model

  Rationals with a NaN, means computed exactly.  It does not round as
  float64 does; it serves to evaluate the functions on concrete
  recordings. *)
Module Exact.

Inductive scalar : Type :=
| Num (q : Q)
| NaN.

Definition add (a b : scalar) : scalar :=
  match a, b with
  | Num x, Num y => Num (Qred (x + y))
  | _, _ => NaN
  end.

(** The mean of no element is NaN, as numpy has it. *)
Definition exact_mean (l : list scalar) : scalar :=
  match l with
  | [] => NaN
  | _ =>
      match fold_left add l (Num 0) with
      | Num s => Num (Qred (s / inject_Z (Z.of_nat (length l))))
      | NaN => NaN
      end
  end.

Definition exact : Float64 :=
  {| float64 := scalar; nan := NaN; mean := exact_mean |}.

(** A collaborator that returns every metric as zero. *)
Definition zeros : @Collaborator exact :=
  @Build_Collaborator exact scalar (fun v => v)
    (fun _ _ => Return (map (fun k => (k, Num 0)) RRV_COLUMNS)).

(** A collaborator that raises. *)
Definition failing : @Collaborator exact :=
  @Build_Collaborator exact scalar (fun v => v)
    (fun _ _ => Raise (OtherError "IndexError" "index 0 is out of bounds")).

(** A collaborator whose table lacks the column [RRV_DFA]. *)
Definition omitting : @Collaborator exact :=
  @Build_Collaborator exact scalar (fun v => v)
    (fun _ _ => Return (map (fun k => (k, Num 0)) (removelast RRV_COLUMNS))).

Definition w0 : @world exact := mkWorld [] [].

(** The recording of the specification's example. *)
Definition rec_example : @DataFrame exact :=
  [("RSP_Rate", [Num 10; Num 12; Num 14]);
   ("RSP_Amplitude", [Num (5 # 10); Num (7 # 10); Num (6 # 10)])].

(** Two columns match [RSP_Rate]; one of them bears the exact name. *)
Definition rec_two_rates : @DataFrame exact :=
  [("RSP_Rate", [Num 10; Num 20]);
   ("RSP_Rate_Alt", [Num 1; Num 2]);
   ("RSP_Amplitude", [Num 3; Num 5])].

(** A column matches [RSP_Rate]; none bears the exact name. *)
Definition rec_alt_only : @DataFrame exact :=
  [("RSP_Rate_Alt", [Num 1; Num 2]);
   ("RSP_Amplitude", [Num 3; Num 5])].

(** No amplitude column. *)
Definition rec_no_amplitude : @DataFrame exact :=
  [("RSP_Rate", [Num 10; Num 12; Num 14])].

(** No rate column. *)
Definition rec_no_rate : @DataFrame exact :=
  [("RSP_Amplitude", [Num 3; Num 5])].

Definition epochs_example : pydict (@DataFrame exact) :=
  [("1", rec_example); ("2", rec_two_rates)].

(** The exact name [RSP_Rate] twice, beside a column that only contains
    it. *)
Definition rec_repeated_rate : @DataFrame exact :=
  [("RSP_Rate", [Num 1; Num 2]);
   ("RSP_Rate_Alt", [Num 100; Num 200]);
   ("RSP_Rate", [Num 3; Num 4]);
   ("RSP_Amplitude", [Num 3; Num 5])].


Definition epochs_repeated : pydict (@DataFrame exact) :=
  [("1", rec_example); ("2", rec_repeated_rate)].

End Exact.

(** * Properties *)

Section Properties.

Context {num : Float64} {rrv_impl : Collaborator}.

(** ** Lists, strings and dictionaries *)

Lemma filter_map_fst {A B} (p : A -> bool) (l : list (A * B)) :
  filter p (map fst l) = map fst (filter (fun c => p (fst c)) l).
Proof.
  induction l as [|[a b] l IH]; simpl; [reflexivity|].
  destruct (p a); simpl; now rewrite IH.
Qed.

Lemma filter_refines {A} (p q : A -> bool) (l : list A) :
  (forall x, q x = true -> p x = true) ->
  filter q l = filter q (filter p l).
Proof.
  intros Hqp. induction l as [|x l IH]; simpl; [reflexivity|].
  destruct (q x) eqn:Hq.
  - rewrite (Hqp x Hq). simpl. rewrite Hq. now rewrite IH.
  - destruct (p x); simpl; [rewrite Hq|]; exact IH.
Qed.

Lemma dict_get_set_same {A} (d : pydict A) (k : string) (v : A) :
  dict_get (dict_set d k v) k = Some v.
Proof.
  induction d as [|[k' v'] d IH]; simpl.
  - now rewrite String.eqb_refl.
  - destruct (String.eqb k' k) eqn:E; simpl; rewrite E; [reflexivity|exact IH].
Qed.

Lemma dict_set_fresh {A} (d : pydict A) (k : string) (v : A) :
  ~ In k (dict_keys d) -> dict_set d k v = d ++ [(k, v)].
Proof.
  induction d as [|[k' v'] d IH]; simpl; intros Hk; [reflexivity|].
  destruct (String.eqb k' k) eqn:E.
  - apply String.eqb_eq in E. tauto.
  - f_equal. apply IH. tauto.
Qed.

Lemma dict_set_last {A} (d : pydict A) (k : string) (v v' : A) :
  ~ In k (dict_keys d) -> dict_set (d ++ [(k, v)]) k v' = d ++ [(k, v')].
Proof.
  induction d as [|[k0 v0] d IH]; simpl; intros Hk.
  - now rewrite String.eqb_refl.
  - destruct (String.eqb k0 k) eqn:E.
    + apply String.eqb_eq in E. tauto.
    + f_equal. apply IH. tauto.
Qed.

Lemma dict_get_in {A} (d : pydict A) (k : string) (v : A) :
  NoDup (dict_keys d) -> In (k, v) d -> dict_get d k = Some v.
Proof.
  induction d as [|[k' v'] d IH]; simpl; intros Hnd Hin; [contradiction|].
  inversion Hnd as [|? ? Hnotin Hnd']; subst.
  destruct Hin as [Heq|Hin].
  - inversion Heq; subst. now rewrite String.eqb_refl.
  - destruct (String.eqb k' k) eqn:E; [|now apply IH].
    apply String.eqb_eq in E; subst k'.
    exfalso. apply Hnotin. unfold dict_keys.
    change k with (fst (k, v)). now apply in_map.
Qed.

(** ** Selecting columns *)

Lemma rate_cols_matching (frag : string) (data : DataFrame) :
  filter (str_in frag) (columns_of data) = map fst (matching frag data).
Proof. apply filter_map_fst. Qed.

Lemma count_matching (frag : string) (data : DataFrame) :
  length (filter (str_in frag) (columns_of data)) =
  length (matching frag data).
Proof. rewrite rate_cols_matching. apply length_map. Qed.

(** The one column whose name contains [frag] is also the one column
    bearing that name: reading it by name yields a Series. *)
Lemma getitem_matching (frag : string) (data : DataFrame) c vals :
  matching frag data = [(c, vals)] -> getitem data c = Some [vals].
Proof.
  intros Hm. unfold getitem.
  assert (Hc : str_in frag c = true).
  { assert (Hin : In (c, vals) (matching frag data)) by (rewrite Hm; now left).
    apply filter_In in Hin. exact (proj2 Hin). }
  rewrite (filter_refines (fun c0 => str_in frag (fst c0))
                          (fun c0 => String.eqb (fst c0) c)).
  - fold (matching frag data). rewrite Hm. simpl.
    now rewrite String.eqb_refl.
  - intros [n vs] E. simpl in *. apply String.eqb_eq in E. now subst.
Qed.

Lemma getitem_none (data : DataFrame) (name : string) :
  ~ In name (columns_of data) -> getitem data name = None.
Proof.
  intros Hn. unfold getitem.
  destruct (filter (fun c => String.eqb (fst c) name) data)
    as [|[n vs] l] eqn:E; [reflexivity|].
  exfalso. apply Hn.
  assert (Hin : In (n, vs) (filter (fun c => String.eqb (fst c) name) data))
    by (rewrite E; now left).
  apply filter_In in Hin. destruct Hin as [Hin Heq].
  simpl in Heq. apply String.eqb_eq in Heq. subst n.
  unfold columns_of. change name with (fst (name, vs)). now apply in_map.
Qed.

Lemma getitem_some (data : DataFrame) (name : string) :
  In name (columns_of data) -> exists sel, getitem data name = Some sel.
Proof.
  intros Hin. unfold getitem, columns_of in *.
  apply in_map_iff in Hin. destruct Hin as [[n vs] [Hn Hin]].
  simpl in Hn. subst n.
  destruct (filter (fun c => String.eqb (fst c) name) data)
    as [|c l] eqn:E; [|eauto].
  assert (H : In (name, vs) (filter (fun c => String.eqb (fst c) name) data)).
  { apply filter_In. split; [exact Hin|]. simpl. apply String.eqb_refl. }
  rewrite E in H. contradiction.
Qed.

Lemma matching_present (frag name : string) (data : DataFrame) :
  str_in frag name = true -> In name (columns_of data) ->
  matching frag data <> [].
Proof.
  intros Hs Hin Hm. unfold columns_of in Hin.
  apply in_map_iff in Hin. destruct Hin as [[n vs] [Hn Hin]].
  simpl in Hn. subst n.
  assert (H : In (name, vs) (matching frag data)).
  { apply filter_In. split; [exact Hin|exact Hs]. }
  rewrite Hm in H. contradiction.
Qed.

(** ** Running the source functions *)

(** The copy loop stops at the first name the table lacks. *)
Lemma copy_all_run (rrv : pydict V) (keys : list string) :
  forall (intervals : pydict float64) (w : world),
    copy_all rrv keys intervals w =
    (w, match find (lacks rrv) keys with
        | Some k => Raise (KeyError k)
        | None =>
            Return (fold_left (fun acc k => dict_set acc k (metric rrv k))
                              keys intervals)
        end).
Proof.
  induction keys as [|k keys IH]; intros intervals w; [reflexivity|].
  simpl. unfold bind, copy_float, subscript, lacks, metric.
  destruct (dict_get rrv k) as [v|] eqn:E; simpl; [|reflexivity].
  unfold bind, ret. simpl. apply IH.
Qed.

(** With a dictionary of the caller's, the helper leaves the world as it
    found it; its outcome is decided by the recording alone. *)
Lemma formatinput_run (interval : DataFrame) (o : pydict float64) (w : world) :
  _rsp_intervalrelated_formatinput interval (Some o) w =
  (w,
   if Nat.eqb (length (matching "RSP_Rate" interval)) 0 then
     Raise (ValueError rate_error)
   else if Nat.eqb (length (matching "RSP_Amplitude" interval)) 0 then
     Raise (ValueError formatinput_amplitude_error)
   else
     match getitem interval "RSP_Rate" with
     | None => Raise (KeyError "RSP_Rate")
     | Some rate =>
         match getitem interval "RSP_Amplitude" with
         | None => Raise (KeyError "RSP_Amplitude")
         | Some amplitude =>
             Return (dict_set
                       (dict_set o "RSP_Rate_Mean" (mean (values rate)))
                       "RSP_Amplitude_Mean" (mean (values amplitude)))
         end
     end).
Proof.
  unfold _rsp_intervalrelated_formatinput.
  rewrite !count_matching.
  destruct (Nat.eqb (length (matching "RSP_Rate" interval)) 0);
    [reflexivity|].
  destruct (Nat.eqb (length (matching "RSP_Amplitude" interval)) 0);
    [reflexivity|].
  unfold bind, subscript.
  destruct (getitem interval "RSP_Rate") as [rate|]; [|reflexivity].
  simpl.
  destruct (getitem interval "RSP_Amplitude") as [amplitude|]; reflexivity.
Qed.

(** The single-recording branch, once the rate column is the only one of
    its kind: the collaborator is called, then the first of these
    decides: its failure, a missing metric, the amplitude check. *)
Lemma single_recording_run (data : DataFrame) (sampling_rate : Z)
    (w : world) rc rate :
  matching "RSP_Rate" data = [(rc, rate)] ->
  single_recording data sampling_rate [] w =
  (logged w data sampling_rate,
   match rsp_rrv data sampling_rate with
   | Raise e => Raise e
   | Return rrv =>
       match find (lacks rrv) RRV_COLUMNS with
       | Some k => Raise (KeyError k)
       | None =>
           match matching "RSP_Amplitude" data with
           | [(ac, amplitude)] =>
               Return (mkTable [LInt 0] single_columns
                         [mean rate :: map (metric rrv) RRV_COLUMNS
                                    ++ [mean amplitude]])
           | _ => Raise (ValueError amplitude_error)
           end
       end
   end).
Proof.
  intros Hrate. unfold single_recording.
  rewrite !rate_cols_matching, Hrate. simpl map. simpl length.
  simpl Nat.eqb. cbv iota. simpl nth.
  rewrite (getitem_matching _ _ _ _ Hrate).
  unfold bind at 1. unfold bind at 1. simpl subscript. unfold ret at 1.
  unfold bind at 1. unfold call_rsp_rrv.
  destruct (rsp_rrv data sampling_rate) as [rrv|e]; [|reflexivity].
  change (bind (copy_float rrv "RRV_SDBB" ?i) ?k) with
    (copy_all rrv RRV_COLUMNS i).
  rewrite copy_all_run.
  destruct (find (lacks rrv) RRV_COLUMNS) as [k|]; [reflexivity|].
  destruct (matching "RSP_Amplitude" data)
    as [|[ac amplitude] [|c' l]] eqn:Hamp;
    try reflexivity.
  simpl map. simpl length. simpl Nat.eqb. cbv iota. simpl nth.
  rewrite (getitem_matching _ _ _ _ Hamp).
  reflexivity.
Qed.

(** Any other count of rate columns is refused before anything else
    happens. *)
Lemma single_recording_rejects (data : DataFrame) (sampling_rate : Z)
    (w : world) :
  length (matching "RSP_Rate" data) <> 1 ->
  single_recording data sampling_rate [] w = (w, Raise (ValueError rate_error)).
Proof.
  intros Hn. unfold single_recording.
  rewrite count_matching.
  destruct (Nat.eqb_spec (length (matching "RSP_Rate" data)) 1) as [E|E];
    [contradiction|reflexivity].
Qed.

(** The loop over a collection never touches the world. *)
Lemma for_index_pure (data : pydict DataFrame) (keys : list string) :
  forall intervals, exists r,
    forall w, for_index data keys intervals w = (w, r).
Proof.
  induction keys as [|index keys IH]; intros intervals.
  - exists (Return intervals). reflexivity.
  - destruct (dict_get data index) as [interval|] eqn:Hget.
    + assert (Hrun : exists r, forall w,
                 _rsp_intervalrelated_formatinput interval (Some []) w =
                 (w, r)).
      { eexists. intros w. apply formatinput_run. }
      destruct Hrun as [[row|e] Hrun].
      * destruct (IH (dict_set (dict_set intervals index []) index row))
          as [r Hrest].
        exists r. intros w. simpl. unfold bind, subscript, ret.
        rewrite Hget, dict_get_set_same, Hrun. apply Hrest.
      * exists (Raise e). intros w. simpl. unfold bind, subscript, ret.
        now rewrite Hget, dict_get_set_same, Hrun.
    + exists (Raise (KeyError index)). intros w. simpl.
      unfold bind, subscript. now rewrite Hget.
Qed.

(** Visiting the keys of [post] after those of [pre]: each recording
    that holds both exact columns adds its row at the end. *)
Lemma for_index_rows (w : world) (post : pydict DataFrame) :
  forall (pre : pydict DataFrame) (intervals : pydict (pydict float64)),
    NoDup (dict_keys (pre ++ post)) ->
    dict_keys intervals = dict_keys pre ->
    Forall (fun kv => In "RSP_Rate" (columns_of (snd kv)) /\
                      In "RSP_Amplitude" (columns_of (snd kv))) post ->
    exists rows,
      for_index (pre ++ post) (dict_keys post) intervals w =
        (w, Return (intervals ++ rows)) /\
      Forall2 (fun kv row =>
                 exists rate amplitude,
                   getitem (snd kv) "RSP_Rate" = Some rate /\
                   getitem (snd kv) "RSP_Amplitude" = Some amplitude /\
                   row = (fst kv,
                          [("RSP_Rate_Mean", mean (values rate));
                           ("RSP_Amplitude_Mean", mean (values amplitude))]))
              post rows.
Proof.
  induction post as [|[index interval] post IH];
    intros pre intervals Hnd Hkeys Hgood.
  - exists []. split; [simpl; now rewrite app_nil_r|constructor].
  - inversion Hgood as [|? ? [Hr Ha] Hgood']; subst. simpl in Hr, Ha.
    assert (Hfresh : ~ In index (dict_keys intervals)).
    { rewrite Hkeys. unfold dict_keys in *. rewrite map_app in Hnd.
      simpl in Hnd. apply NoDup_remove_2 in Hnd.
      intros Hin. apply Hnd. apply in_or_app. now left. }
    destruct (getitem_some _ _ Hr) as [rate Hrate].
    destruct (getitem_some _ _ Ha) as [amplitude Hamp].
    destruct (IH (pre ++ [(index, interval)])
                 (intervals ++
                  [(index, [("RSP_Rate_Mean", mean (values rate));
                            ("RSP_Amplitude_Mean", mean (values amplitude))])]))
      as [rows [Hrun Hrows]].
    + now rewrite <- app_assoc.
    + unfold dict_keys in *. rewrite !map_app. simpl. now rewrite Hkeys.
    + exact Hgood'.
    + exists ((index, [("RSP_Rate_Mean", mean (values rate));
                       ("RSP_Amplitude_Mean", mean (values amplitude))])
              :: rows).
      split.
      * simpl dict_keys. simpl for_index. unfold bind, subscript, ret.
        rewrite (dict_get_in (pre ++ (index, interval) :: post) index interval
                   Hnd) by (apply in_or_app; right; now left).
        rewrite dict_get_set_same.
        rewrite formatinput_run.
        assert (Hcr : Nat.eqb (length (matching "RSP_Rate" interval)) 0
                      = false).
        { apply Nat.eqb_neq. intros E. apply length_zero_iff_nil in E.
          revert E. now apply (matching_present _ "RSP_Rate"). }
        assert (Hca : Nat.eqb (length (matching "RSP_Amplitude" interval)) 0
                      = false).
        { apply Nat.eqb_neq. intros E. apply length_zero_iff_nil in E.
          revert E. now apply (matching_present _ "RSP_Amplitude"). }
        rewrite Hcr, Hca, Hrate, Hamp.
        rewrite (dict_set_fresh intervals index []) by exact Hfresh.
        rewrite dict_set_last by exact Hfresh.
        change ((pre ++ (index, interval) :: post))
          with (pre ++ [(index, interval)] ++ post).
        rewrite app_assoc.
        simpl dict_set. etransitivity; [exact Hrun|].
        now rewrite <- app_assoc.
      * constructor; [|exact Hrows].
        exists rate, amplitude. simpl. auto.
Qed.

(** ** Tables built from the accumulator *)

Lemma first_seen_all_seen (seen ks : list string) :
  (forall k, In k ks -> existsb (String.eqb k) seen = true) ->
  first_seen seen ks = [].
Proof.
  induction ks as [|k ks IH]; intros Hall; [reflexivity|].
  simpl. rewrite (Hall k) by now left.
  apply IH. intros k' Hk'. apply Hall. now right.
Qed.


(** ** What the collaborator's table holds *)

Lemma all_present (rrv : pydict V) (keys : list string) :
  forall vs, map (dict_get rrv) keys = map Some vs ->
             find (lacks rrv) keys = None /\
             map (metric rrv) keys = map float vs.
Proof.
  induction keys as [|k keys IH]; intros [|v vs] H; try discriminate.
  - split; reflexivity.
  - simpl in H. injection H as Hk Hrest.
    destruct (IH vs Hrest) as [Hfind Hmap].
    simpl. unfold lacks at 1, metric at 1. rewrite Hk. simpl.
    split; [exact Hfind|now rewrite Hmap].
Qed.

Lemma find_lacks_none (rrv : pydict V) (keys : list string) :
  find (lacks rrv) keys = None <->
  (forall k, In k keys -> dict_get rrv k <> None).
Proof.
  split.
  - intros Hfind k Hin Hk.
    pose proof (find_none _ _ Hfind k Hin) as Hl.
    unfold lacks in Hl. rewrite Hk in Hl. discriminate.
  - intros Hall. induction keys as [|k keys IH]; [reflexivity|].
    simpl. unfold lacks at 1.
    destruct (dict_get rrv k) eqn:E.
    + apply IH. intros k' Hk'. apply Hall. now right.
    + exfalso. apply (Hall k); [now left|exact E].
Qed.


(** ** The single recording *)

(** C1. A recording with exactly one column whose name contains
    [RSP_Rate] and exactly one whose name contains [RSP_Amplitude], the
    collaborator returning the fifteen metrics [vs]: the call returns a
    table of one row whose seventeen columns are, in this order,
    [RSP_Rate_Mean], the fifteen [RSP_RRV_*] and [RSP_Amplitude_Mean];
    the first cell is the mean of the rate column, the last the mean of
    the amplitude column, the others the metrics as floats. *)
Theorem single_recording_features (data : DataFrame) (sampling_rate : Z)
    (w : world) rc rate ac amplitude (rrv : pydict V) (vs : list V) :
  matching "RSP_Rate" data = [(rc, rate)] ->
  matching "RSP_Amplitude" data = [(ac, amplitude)] ->
  rsp_rrv data sampling_rate = Return rrv ->
  map (dict_get rrv) RRV_COLUMNS = map Some vs ->
  rsp_intervalrelated (PyDataFrame data) sampling_rate w =
  (logged w data sampling_rate,
   Return (mkTable
             [LInt 0]
             (map LStr
                ["RSP_Rate_Mean";
                 "RSP_RRV_SDBB"; "RSP_RRV_RMSSD"; "RSP_RRV_SDSD";
                 "RSP_RRV_VLF"; "RSP_RRV_LF"; "RSP_RRV_HF"; "RSP_RRV_LFHF";
                 "RSP_RRV_LFn"; "RSP_RRV_HFn"; "RSP_RRV_SD1"; "RSP_RRV_SD2";
                 "RSP_RRV_SD2SD1"; "RSP_RRV_ApEn"; "RSP_RRV_SampEn";
                 "RSP_RRV_DFA";
                 "RSP_Amplitude_Mean"])
             [mean rate :: map float vs ++ [mean amplitude]])).
Proof.
  intros Hrate Hamp Hrrv Hvs.
  destruct (all_present _ _ _ Hvs) as [Hfind Hmetrics].
  unfold rsp_intervalrelated, bind.
  rewrite (single_recording_run _ _ _ _ _ Hrate).
  rewrite Hrrv, Hfind, Hamp, Hmetrics. reflexivity.
Qed.

(** C2. A recording with no column, or with more than one column, whose
    name contains [RSP_Rate]: the call raises the [ValueError] that asks
    for an [RSP_Rate] column, and the world is the one it started from:
    the collaborator has not been called. *)
Theorem rate_column_required (data : DataFrame) (sampling_rate : Z)
    (w : world) :
  length (matching "RSP_Rate" data) = 0 \/
  1 < length (matching "RSP_Rate" data) ->
  rsp_intervalrelated (PyDataFrame data) sampling_rate w =
    (w, Raise (ValueError rate_error)) /\
  rrv_calls (fst (rsp_intervalrelated (PyDataFrame data) sampling_rate w)) =
    rrv_calls w.
Proof.
  intros Hcount.
  assert (Hrun : rsp_intervalrelated (PyDataFrame data) sampling_rate w =
                 (w, Raise (ValueError rate_error))).
  { unfold rsp_intervalrelated, bind.
    rewrite single_recording_rejects by lia. reflexivity. }
  rewrite Hrun. split; reflexivity.
Qed.

(** C5, as the code has it. A recording with exactly one rate column and
    none, or more than one, column whose name contains [RSP_Amplitude],
    the collaborator having returned its fifteen metrics: the call
    raises the [ValueError] that asks for an [RSP_Amplitude] column, and
    returns no table. *)
Theorem amplitude_column_required (data : DataFrame) (sampling_rate : Z)
    (w : world) (rrv : pydict V) :
  length (matching "RSP_Rate" data) = 1 ->
  length (matching "RSP_Amplitude" data) = 0 \/
  1 < length (matching "RSP_Amplitude" data) ->
  rsp_rrv data sampling_rate = Return rrv ->
  (forall m, In m RRV_METRICS -> dict_get rrv ("RRV_" ++ m)%string <> None) ->
  rsp_intervalrelated (PyDataFrame data) sampling_rate w =
    (logged w data sampling_rate, Raise (ValueError amplitude_error)).
Proof.
  intros Hrate Hamp Hrrv Hall.
  destruct (matching "RSP_Rate" data) as [|[rc rate] [|c l]] eqn:Hm;
    try discriminate.
  assert (Hfind : find (lacks rrv) RRV_COLUMNS = None).
  { apply find_lacks_none. intros k Hk. unfold RRV_COLUMNS in Hk.
    apply in_map_iff in Hk. destruct Hk as [m [Hm' Hin]]. subst k.
    now apply Hall. }
  unfold rsp_intervalrelated, bind.
  rewrite (single_recording_run _ _ _ _ _ Hm), Hrrv, Hfind.
  destruct (matching "RSP_Amplitude" data) as [|[ac amplitude] [|c l]];
    simpl in Hamp; try reflexivity; lia.
Qed.


(** ** The collection of recordings *)

(** *** Reading whole columns *)

Lemma heads_nth {A} (d : A) (n : nat) (cols : list (list A)) :
  Forall (fun c => length c = S n) cols ->
  heads cols = map (fun c => nth 0 c d) cols.
Proof.
  induction 1 as [|c cols Hc _ IH]; [reflexivity|].
  destruct c as [|x c]; [discriminate|].
  unfold heads in *. simpl. now rewrite IH.
Qed.

Lemma tails_length {A} (n : nat) (cols : list (list A)) :
  Forall (fun c => length c = S n) cols ->
  Forall (fun c => length c = n) (tails cols).
Proof.
  induction 1 as [|c cols Hc _ IH]; [constructor|].
  destruct c as [|x c]; [discriminate|].
  simpl. constructor; [now injection Hc|exact IH].
Qed.

Lemma tails_nth {A} (d : A) (i : nat) (cols : list (list A)) :
  map (fun c => nth i c d) (tails cols) = map (fun c => nth (S i) c d) cols.
Proof.
  unfold tails. rewrite map_map. apply map_ext.
  intros [|x c]; [now destruct i|reflexivity].
Qed.

(** On a block of [n]-sample columns, [transpose] lists the rows. *)
Lemma transpose_rows {A} (d : A) (n : nat) :
  forall cols : list (list A),
    Forall (fun c => length c = n) cols ->
    transpose n cols = map (fun i => map (fun c => nth i c d) cols) (seq 0 n).
Proof.
  induction n as [|n IH]; intros cols Hcols; [reflexivity|].
  simpl. rewrite (heads_nth d n cols Hcols). f_equal.
  rewrite (IH (tails cols) (tails_length n cols Hcols)).
  rewrite <- seq_shift, map_map. apply map_ext.
  intros i. apply tails_nth.
Qed.

Lemma row_major_single (c : list float64) : row_major [c] = c.
Proof.
  unfold row_major. simpl hd.
  induction c as [|x c IH]; [reflexivity|].
  simpl. f_equal. rewrite <- seq_shift, flat_map_concat_map, map_map.
  rewrite <- flat_map_concat_map. exact IH.
Qed.

(** [.values] on equally long columns is the block read row by row. *)
Lemma values_row_major (sel : list (list float64)) (n : nat) :
  Forall (fun c => length c = n) sel ->
  values sel = row_major sel.
Proof.
  intros Hsel. destruct sel as [|c [|c' sel]].
  - reflexivity.
  - now rewrite row_major_single.
  - unfold values, row_major.
    assert (Hn : length (hd [] (c :: c' :: sel)) = n)
      by (inversion Hsel; assumption).
    rewrite Hn, (transpose_rows nan n _ Hsel).
    now rewrite flat_map_concat_map.
Qed.

Lemma getitem_named (data : DataFrame) (name : string) sel :
  getitem data name = Some sel -> sel = named name data.
Proof.
  unfold getitem, named.
  destruct (filter (fun c => String.eqb (fst c) name) data);
    [discriminate|].
  intros H. now injection H.
Qed.

Lemma named_rectangular (data : DataFrame) (name : string) :
  rectangular data ->
  exists n, Forall (fun c => length c = n) (named name data).
Proof.
  intros [n Hn]. exists n. unfold named.
  apply Forall_forall. intros c Hc.
  apply in_map_iff in Hc. destruct Hc as [[k vs] [Hc Hin]].
  simpl in Hc. subst c. apply filter_In in Hin.
  rewrite Forall_forall in Hn. exact (Hn _ (proj1 Hin)).
Qed.

(** What the helper stores for a well-formed recording. *)
Lemma getitem_values (data : DataFrame) (name : string) sel :
  rectangular data ->
  getitem data name = Some sel ->
  values sel = row_major (named name data).
Proof.
  intros Hrect Hsel.
  rewrite (getitem_named _ _ _ Hsel).
  destruct (named_rectangular data name Hrect) as [n Hn].
  exact (values_row_major _ n Hn).
Qed.

(** The table of rows that hold the two means and nothing else. *)
Lemma nested_table (rows : pydict (pydict float64)) :
  Forall (fun r => exists x y,
              snd r = [("RSP_Rate_Mean", x); ("RSP_Amplitude_Mean", y)]) rows ->
  from_dict_index_nested rows =
  mkTable (map LStr (dict_keys rows))
          (match rows with
           | [] => []
           | _ => [LStr "RSP_Rate_Mean"; LStr "RSP_Amplitude_Mean"]
           end)
          (map (fun r => map snd (snd r)) rows).
Proof.
  intros Hrows.
  destruct rows as [|[k0 r0] rows]; [reflexivity|].
  assert (Hcols :
    first_seen [] (concat (map (@dict_keys float64)
                               (dict_values ((k0, r0) :: rows)))) =
    ["RSP_Rate_Mean"; "RSP_Amplitude_Mean"]).
  { inversion Hrows as [|? ? [x [y Hr0]] Hrest]; subst. simpl in Hr0. subst r0.
    simpl. f_equal. f_equal.
    apply first_seen_all_seen. intros k Hk.
    apply in_concat in Hk. destruct Hk as [ks [Hks Hk]].
    apply in_map_iff in Hks. destruct Hks as [r [Hr Hin]].
    unfold dict_values in Hin. apply in_map_iff in Hin.
    destruct Hin as [[k1 r1] [Hr1 Hin]]. simpl in Hr1. subst r1 ks.
    rewrite Forall_forall in Hrest.
    destruct (Hrest _ Hin) as [x' [y' Hr]]. simpl in Hr. subst r.
    simpl in Hk. destruct Hk as [Hk|[Hk|[]]]; subst k; reflexivity. }
  unfold from_dict_index_nested. rewrite Hcols. clear Hcols.
  f_equal. unfold dict_values. rewrite map_map.
  generalize ((k0, r0) :: rows) Hrows. clear.
  intros l Hl. induction Hl as [|[k r] l [x [y Hr]] Hl IH]; [reflexivity|].
  simpl in Hr. subst r. simpl. f_equal. exact IH.
Qed.

(** C3. A collection of N recordings (a dict: its keys are distinct),
    each a DataFrame (its columns equally long) that has columns named
    [RSP_Rate] and [RSP_Amplitude]: the call returns the table whose N
    row labels are the keys of the collection, in their order; whose
    columns are [RSP_Rate_Mean] and [RSP_Amplitude_Mean] and no other,
    without prefix; and whose row for a recording holds the mean of the
    samples of its column [RSP_Rate], then the mean of the samples of
    its column [RSP_Amplitude].  [row_major] of a single column is the
    column ([row_major_single]); where the name is borne by several
    columns, pandas hands over all of them and the mean runs over their
    samples row by row. *)
Theorem collection_features (data : pydict DataFrame) (sampling_rate : Z)
    (w : world) :
  NoDup (dict_keys data) ->
  Forall (fun kv => exact_columns (snd kv) /\ rectangular (snd kv)) data ->
  rsp_intervalrelated (PyDict data) sampling_rate w =
  (w,
   Return
     (mkTable
        (map LStr (dict_keys data))
        (match data with
         | [] => []
         | _ => [LStr "RSP_Rate_Mean"; LStr "RSP_Amplitude_Mean"]
         end)
        (map (fun kv =>
                [mean (row_major (named "RSP_Rate" (snd kv)));
                 mean (row_major (named "RSP_Amplitude" (snd kv)))])
             data))).
Proof.
  intros Hnd Hgood.
  assert (Hexact : Forall (fun kv => In "RSP_Rate" (columns_of (snd kv)) /\
                                     In "RSP_Amplitude" (columns_of (snd kv)))
                          data).
  { eapply Forall_impl; [|exact Hgood]. intros kv [H _]. exact H. }
  destruct (for_index_rows w data [] [] Hnd eq_refl Hexact)
    as [rows [Hrun Hrows]].
  simpl in Hrun.
  unfold rsp_intervalrelated, recording_collection, bind.
  rewrite Hrun. unfold ret. f_equal. f_equal.
  rewrite nested_table.
  - clear Hrun Hnd Hexact.
    induction Hrows as [|kv row l l' Hrow Hrest IH]; [reflexivity|].
    destruct Hrow as [rate [amplitude [Hr [Ha Hrow]]]]. subst row.
    inversion Hgood as [|? ? [_ Hrect] Hgood']; subst.
    specialize (IH Hgood').
    injection IH as Hidx _ Hcells.
    simpl. rewrite Hidx, Hcells.
    rewrite (getitem_values _ _ _ Hrect Hr).
    rewrite (getitem_values _ _ _ Hrect Ha).
    reflexivity.
  - clear Hrun Hnd Hexact Hgood.
    induction Hrows as [|kv row l l' Hrow Hrest IH]; [constructor|].
    constructor; [|exact IH].
    destruct Hrow as [rate [amplitude [_ [_ Hrow]]]]. subst row.
    simpl. eauto.
Qed.


(** C9. A recording in which some column name contains [RSP_Rate] and
    some contains [RSP_Amplitude], but no column is named [RSP_Rate]:
    both presence checks pass, and the read of the column [RSP_Rate]
    raises [KeyError]; so does the call on a collection that starts with
    such a recording. *)
Theorem presence_checks_do_not_secure_the_read (index : string)
    (interval : DataFrame) (rest : pydict DataFrame) (sampling_rate : Z)
    (w : world) :
  matching "RSP_Rate" interval <> [] ->
  matching "RSP_Amplitude" interval <> [] ->
  ~ In "RSP_Rate" (columns_of interval) ->
  (forall output,
      _rsp_intervalrelated_formatinput interval output w =
        (w, Raise (KeyError "RSP_Rate"))) /\
  rsp_intervalrelated (PyDict ((index, interval) :: rest)) sampling_rate w =
    (w, Raise (KeyError "RSP_Rate")).
Proof.
  intros Hr Ha Hexact.
  assert (Hf : forall output w',
             _rsp_intervalrelated_formatinput interval output w' =
             (w', Raise (KeyError "RSP_Rate"))).
  { intros output w'. unfold _rsp_intervalrelated_formatinput.
    rewrite !count_matching.
    destruct (matching "RSP_Rate" interval); [contradiction|].
    destruct (matching "RSP_Amplitude" interval); [contradiction|].
    simpl. unfold bind, subscript.
    now rewrite (getitem_none _ _ Hexact). }
  split; [intros output; apply Hf|].
  unfold rsp_intervalrelated, recording_collection. simpl.
  unfold bind, subscript, ret. simpl.
  rewrite !String.eqb_refl. now rewrite Hf.
Qed.

(** C10. The empty collection: the call returns a table with no row. *)
Theorem empty_collection (sampling_rate : Z) (w : world) :
  rsp_intervalrelated (PyDict []) sampling_rate w =
    (w, Return (mkTable [] [] [])).
Proof. reflexivity. Qed.

(** ** Other inputs *)

(** C4, what the code does. On a value that is neither a DataFrame nor a
    dict no branch binds [rsp_intervals]: the final [return] raises
    [UnboundLocalError].  Nothing is returned, and nothing was done
    before; but the exception is Python's own, not an error of this
    module about the shape of its input. *)
Theorem other_input_unbound_local (repr : string) (sampling_rate : Z)
    (w : world) :
  rsp_intervalrelated (PyOther repr) sampling_rate w =
    (w, Raise (UnboundLocalError "rsp_intervals")).
Proof. reflexivity. Qed.

(** ** State across calls *)

(** Whatever the world, a call has one outcome, and changes the world by
    what it adds to the log of the collaborator; the dictionary of the
    default argument stays as it was. *)
Lemma rsp_intervalrelated_outcome (data : pyobj) (sampling_rate : Z) :
  exists r calls, forall w,
    rsp_intervalrelated data sampling_rate w =
      (mkWorld (rrv_calls w ++ calls) (formatinput_default w), r).
Proof.
  assert (Hsame : forall w,
             w = mkWorld (rrv_calls w ++ []) (formatinput_default w)).
  { intros [calls dflt]. simpl. now rewrite app_nil_r. }
  destruct data as [data|data|repr].
  - destruct (Nat.eq_dec (length (matching "RSP_Rate" data)) 1) as [E|E].
    + destruct (matching "RSP_Rate" data) as [|[rc rate] [|c l]] eqn:Hm;
        try discriminate.
      assert (Hrun : forall r,
                 (forall w, single_recording data sampling_rate [] w =
                            (logged w data sampling_rate, r)) ->
                 exists r' calls, forall w,
                   rsp_intervalrelated (PyDataFrame data) sampling_rate w =
                   (mkWorld (rrv_calls w ++ calls) (formatinput_default w),
                    r')).
      { intros r Hr.
        exists (match r with Return t => Return t | Raise e => Raise e end),
               [(data, sampling_rate)].
        intros w. unfold rsp_intervalrelated, bind. rewrite Hr.
        destruct r; reflexivity. }
      eapply Hrun. intros w. exact (single_recording_run _ _ w _ _ Hm).
    + exists (Raise (ValueError rate_error)), []. intros w.
      unfold rsp_intervalrelated, bind.
      rewrite single_recording_rejects by exact E.
      now rewrite <- Hsame.
  - destruct (for_index_pure data (dict_keys data) []) as [[rows|e] Hrun].
    + exists (Return (from_dict_index_nested rows)), []. intros w.
      unfold rsp_intervalrelated, recording_collection, bind.
      rewrite Hrun. unfold ret. now rewrite <- Hsame.
    + exists (Raise e), []. intros w.
      unfold rsp_intervalrelated, recording_collection, bind.
      rewrite Hrun. now rewrite <- Hsame.
  - exists (Raise (UnboundLocalError "rsp_intervals")), []. intros w.
    simpl. unfold bind, ret, raise. now rewrite <- Hsame.
Qed.

(** The helper, called without [output], writes into the dictionary of
    its default argument, which the next such call finds: this is the
    state a caller could leak.  [rsp_intervalrelated] always passes a
    dictionary of its own. *)
Remark formatinput_default_is_shared (interval : DataFrame) (w : world)
    rate amplitude :
  getitem interval "RSP_Rate" = Some rate ->
  getitem interval "RSP_Amplitude" = Some amplitude ->
  formatinput_default
    (fst (_rsp_intervalrelated_formatinput interval None w)) =
  dict_set (dict_set (formatinput_default w)
                     "RSP_Rate_Mean" (mean (values rate)))
           "RSP_Amplitude_Mean" (mean (values amplitude)).
Proof.
  intros Hr Ha.
  assert (Hin : forall name (sel : list (list float64)),
             getitem interval name = Some sel ->
             In name (columns_of interval)).
  { intros name sel Hsel.
    destruct (in_dec string_dec name (columns_of interval)) as [H|H];
      [exact H|].
    rewrite (getitem_none _ _ H) in Hsel. discriminate. }
  unfold _rsp_intervalrelated_formatinput. rewrite !count_matching.
  destruct (matching "RSP_Rate" interval) eqn:Hmr.
  { exfalso. revert Hmr.
    apply (matching_present "RSP_Rate" "RSP_Rate"); [reflexivity|].
    exact (Hin _ _ Hr). }
  destruct (matching "RSP_Amplitude" interval) eqn:Hma.
  { exfalso. revert Hma.
    apply (matching_present "RSP_Amplitude" "RSP_Amplitude"); [reflexivity|].
    exact (Hin _ _ Ha). }
  simpl. unfold bind, subscript. rewrite Hr, Ha. reflexivity.
Qed.

(** C8. Calling twice on the same input, the second call in the world
    the first one left: the two outcomes are the same, and the
    dictionary of the default argument, the one piece of state a call
    could carry over, is after each call what it was before. *)
Theorem second_call_same_output (data : pyobj) (sampling_rate : Z)
    (w : world) :
  let first := rsp_intervalrelated data sampling_rate w in
  let second := rsp_intervalrelated data sampling_rate (fst first) in
  snd second = snd first /\
  formatinput_default (fst first) = formatinput_default w /\
  formatinput_default (fst second) = formatinput_default w.
Proof.
  destruct (rsp_intervalrelated_outcome data sampling_rate)
    as [r [calls Hrun]].
  cbv zeta. rewrite (Hrun w). cbn [fst snd].
  rewrite Hrun. cbn [fst snd formatinput_default]. auto.
Qed.

End Properties.

(** * The properties on concrete recordings *)

Module Witnesses.
Import Exact.

(** The example of the specification: rates 10, 12, 14 and amplitudes
    0.5, 0.7, 0.6 with all metrics zero give means 12 and 0.6. *)
Lemma single_recording_features_witness :
  @rsp_intervalrelated exact zeros (PyDataFrame rec_example) 1000 w0 =
  (logged w0 rec_example 1000,
   Return (@mkTable exact [LInt 0] single_columns
             [[Num 12; Num 0; Num 0; Num 0; Num 0; Num 0; Num 0; Num 0;
               Num 0; Num 0; Num 0; Num 0; Num 0; Num 0; Num 0; Num 0;
               Num (3 # 5)]])).
Proof.
  exact (@single_recording_features exact zeros rec_example 1000 w0
           "RSP_Rate" [Num 10; Num 12; Num 14]
           "RSP_Amplitude" [Num (5 # 10); Num (7 # 10); Num (6 # 10)]
           (map (fun k => (k, Num 0)) RRV_COLUMNS)
           (map (fun _ => Num 0) RRV_COLUMNS)
           eq_refl eq_refl eq_refl eq_refl).
Defined.

Lemma rate_column_required_witness :
  1 < length (matching "RSP_Rate" rec_two_rates) /\
  @rsp_intervalrelated exact zeros (PyDataFrame rec_two_rates) 1000 w0 =
    (w0, Raise (ValueError rate_error)).
Proof.
  split; [simpl; lia|].
  apply (@rate_column_required exact zeros rec_two_rates 1000 w0).
  right. simpl. lia.
Defined.

(** Two epochs, the second with two columns named [RSP_Rate]: its rate
    mean runs over the samples 1, 3, 2, 4 of both. *)
Lemma collection_features_witness :
  @rsp_intervalrelated exact zeros (PyDict epochs_repeated) 1000 w0 =
  (w0,
   Return (@mkTable exact [LStr "1"; LStr "2"]
             [LStr "RSP_Rate_Mean"; LStr "RSP_Amplitude_Mean"]
             [[Num 12; Num (3 # 5)]; [Num (5 # 2); Num 4]])).
Proof.
  refine (@collection_features exact zeros epochs_repeated 1000 w0 _ _).
  - repeat constructor; simpl; intuition discriminate.
  - constructor; [|constructor; [|constructor]].
    + split; [split; simpl; tauto|]. exists 3. repeat constructor.
    + split; [split; simpl; tauto|]. exists 2. repeat constructor.
Defined.

Lemma amplitude_column_required_witness :
  @rsp_intervalrelated exact zeros (PyDataFrame rec_no_amplitude) 1000 w0 =
    (logged w0 rec_no_amplitude 1000, Raise (ValueError amplitude_error)).
Proof.
  apply (@amplitude_column_required exact zeros rec_no_amplitude 1000 w0
           (map (fun k => (k, Num 0)) RRV_COLUMNS)).
  - reflexivity.
  - left. reflexivity.
  - reflexivity.
  - intros m Hm. simpl in Hm.
    repeat (destruct Hm as [Hm|Hm]; [subst m; discriminate|]).
    contradiction.
Defined.

(** C5, as stated, fails. The recording has one rate column and no
    amplitude column; the collaborator raises; the exception that
    reaches the caller is the collaborator's, raised before the
    amplitude columns are looked at. *)
Lemma amplitude_error_preempted :
  length (matching "RSP_Rate" rec_no_amplitude) = 1 /\
  length (matching "RSP_Amplitude" rec_no_amplitude) = 0 /\
  snd (@rsp_intervalrelated exact failing
         (PyDataFrame rec_no_amplitude) 1000 w0) =
    Raise (OtherError "IndexError" "index 0 is out of bounds") /\
  snd (@rsp_intervalrelated exact failing
         (PyDataFrame rec_no_amplitude) 1000 w0) <>
    Raise (ValueError amplitude_error).
Proof.
  repeat split; try reflexivity. discriminate.
Qed.




Lemma presence_checks_do_not_secure_the_read_witness :
  @rsp_intervalrelated exact zeros (PyDict [("1", rec_alt_only)]) 1000 w0 =
    (w0, Raise (KeyError "RSP_Rate")).
Proof.
  apply (@presence_checks_do_not_secure_the_read exact zeros
           "1" rec_alt_only [] 1000 w0).
  - discriminate.
  - discriminate.
  - simpl. intuition discriminate.
Defined.

(** The same recording with two rate columns is refused when passed
    alone and accepted inside a collection. *)
Example two_rate_columns_both_paths :
  snd (@rsp_intervalrelated exact zeros (PyDataFrame rec_two_rates) 1000 w0) =
    Raise (ValueError rate_error) /\
  snd (@rsp_intervalrelated exact zeros
         (PyDict [("1", rec_two_rates)]) 1000 w0) =
    Return (@mkTable exact [LStr "1"]
              [LStr "RSP_Rate_Mean"; LStr "RSP_Amplitude_Mean"]
              [[Num 15; Num 4]]).
Proof. split; reflexivity. Qed.

(** A metric missing from the collaborator's table. *)
Example missing_metric_key_error :
  snd (@rsp_intervalrelated exact omitting (PyDataFrame rec_example) 1000 w0) =
    Raise (KeyError "RRV_DFA").
Proof. reflexivity. Qed.

(** A list is passed where a DataFrame or a dict is expected. *)
Example list_input_unbound_local :
  @rsp_intervalrelated exact zeros (PyOther "[1, 2, 3]") 1000 w0 =
    (w0, Raise (UnboundLocalError "rsp_intervals")).
Proof. reflexivity. Qed.

End Witnesses.

(** * Further properties of the two functions *)

Section Coverage.

Context {num : Float64} {rrv_impl : Collaborator}.

(** ** The substring test *)

Lemma prefix_app (needle hay : string) :
  String.prefix needle hay = true <->
  exists post, hay = (needle ++ post)%string.
Proof.
  revert hay. induction needle as [|a needle IH]; intros hay.
  - split; [intros _; now exists hay|intros _; now destruct hay].
  - destruct hay as [|b hay]; simpl.
    + split; [discriminate|intros [post H]; discriminate].
    + destruct (Ascii.ascii_dec a b) as [E|E].
      * subst b. rewrite IH. split; intros [post H]; exists post.
        -- now rewrite H.
        -- now injection H.
      * split; [discriminate|].
        intros [post H]. injection H as H1 H2. congruence.
Qed.

Lemma str_in_app (needle hay : string) :
  str_in needle hay = true <->
  exists pre post, hay = (pre ++ needle ++ post)%string.
Proof.
  induction hay as [|b hay IH].
  - change (str_in needle "") with (String.prefix needle "" || false).
    rewrite orb_false_r, prefix_app. split.
    + intros [post H]. now exists EmptyString, post.
    + intros [pre [post H]]. destruct pre; [now exists post|discriminate].
  - change (str_in needle (String b hay))
      with (String.prefix needle (String b hay) || str_in needle hay).
    rewrite orb_true_iff, prefix_app, IH. split.
    + intros [[post H]|[pre [post H]]].
      * now exists EmptyString, post.
      * exists (String b pre), post. simpl. now rewrite H.
    + intros [pre [post H]]. destruct pre as [|c pre].
      * left. now exists post.
      * right. simpl in H. injection H as _ H. now exists pre, post.
Qed.

(** X1. The comprehension [[col for col in data.columns if frag in col]]
    keeps a column exactly when its name can be cut into some text, then
    [frag], then some text: [frag] occurs in it as a contiguous piece,
    wherever it stands. *)
Theorem matching_is_substring (frag : string) (data : DataFrame) (c : Column) :
  In c (matching frag data) <->
  In c data /\ exists pre post, fst c = (pre ++ frag ++ post)%string.
Proof.
  unfold matching. rewrite filter_In. now rewrite str_in_app.
Qed.

(** ** One recording: when the collaborator runs, when a table comes back *)

Lemma getitem_some_in (data : DataFrame) (name : string) sel :
  getitem data name = Some sel -> In name (columns_of data).
Proof.
  intros Hsel.
  destruct (in_dec string_dec name (columns_of data)) as [H|H]; [exact H|].
  rewrite (getitem_none _ _ H) in Hsel. discriminate.
Qed.

Lemma all_columns_present (rrv : pydict V) :
  find (lacks rrv) RRV_COLUMNS = None <->
  (forall m, In m RRV_METRICS -> dict_get rrv ("RRV_" ++ m)%string <> None).
Proof.
  rewrite find_lacks_none. unfold RRV_COLUMNS. split.
  - intros H m Hm. apply H. now apply in_map.
  - intros H k Hk. apply in_map_iff in Hk.
    destruct Hk as [m [Hk Hm]]. subst k. now apply H.
Qed.

(** The whole call on a recording that has one rate column. *)
Lemma dataframe_run (data : DataFrame) (sampling_rate : Z) (w : world)
    rc rate :
  matching "RSP_Rate" data = [(rc, rate)] ->
  rsp_intervalrelated (PyDataFrame data) sampling_rate w =
  (logged w data sampling_rate,
   match rsp_rrv data sampling_rate with
   | Raise e => Raise e
   | Return rrv =>
       match find (lacks rrv) RRV_COLUMNS with
       | Some k => Raise (KeyError k)
       | None =>
           match matching "RSP_Amplitude" data with
           | [(ac, amplitude)] =>
               Return (mkTable [LInt 0] single_columns
                         [mean rate :: map (metric rrv) RRV_COLUMNS
                                    ++ [mean amplitude]])
           | _ => Raise (ValueError amplitude_error)
           end
       end
   end).
Proof.
  intros Hm. unfold rsp_intervalrelated, bind.
  rewrite (single_recording_run _ _ _ _ _ Hm).
  destruct (rsp_rrv data sampling_rate) as [rrv|e]; [|reflexivity].
  destruct (find (lacks rrv) RRV_COLUMNS); [reflexivity|].
  destruct (matching "RSP_Amplitude" data) as [|[ac amplitude] [|c l]];
    reflexivity.
Qed.

Lemma dataframe_rejects (data : DataFrame) (sampling_rate : Z) (w : world) :
  length (matching "RSP_Rate" data) <> 1 ->
  rsp_intervalrelated (PyDataFrame data) sampling_rate w =
  (w, Raise (ValueError rate_error)).
Proof.
  intros H. unfold rsp_intervalrelated, bind.
  now rewrite single_recording_rejects.
Qed.

(** X2. Once the rate check has passed, the collaborator is called,
    exactly once, on the whole recording and with the sampling rate the
    caller gave; this holds whatever happens next: a table, an exception
    of the collaborator, a missing metric, or the amplitude error. *)
Theorem collaborator_called_once (data : DataFrame) (sampling_rate : Z)
    (w : world) :
  length (matching "RSP_Rate" data) = 1 ->
  rrv_calls (fst (rsp_intervalrelated (PyDataFrame data) sampling_rate w)) =
    rrv_calls w ++ [(data, sampling_rate)] /\
  formatinput_default
    (fst (rsp_intervalrelated (PyDataFrame data) sampling_rate w)) =
    formatinput_default w.
Proof.
  intros Hrate.
  destruct (matching "RSP_Rate" data) as [|[rc rate] [|c l]] eqn:Hm;
    try discriminate.
  rewrite (dataframe_run _ _ _ _ _ Hm). split; reflexivity.
Qed.

(** X3. The call on one recording returns a table exactly when there is
    one column whose name contains [RSP_Rate], one whose name contains
    [RSP_Amplitude], and the collaborator returns a table that has the
    fifteen [RRV_] columns; in every other case it raises. *)
Theorem single_recording_returns_iff (data : DataFrame) (sampling_rate : Z)
    (w : world) :
  (exists t,
      snd (rsp_intervalrelated (PyDataFrame data) sampling_rate w) = Return t)
  <->
  (length (matching "RSP_Rate" data) = 1 /\
   length (matching "RSP_Amplitude" data) = 1 /\
   exists rrv,
     rsp_rrv data sampling_rate = Return rrv /\
     forall m, In m RRV_METRICS ->
               dict_get rrv ("RRV_" ++ m)%string <> None).
Proof.
  destruct (Nat.eq_dec (length (matching "RSP_Rate" data)) 1) as [E|E].
  - destruct (matching "RSP_Rate" data) as [|[rc rate] [|c l]] eqn:Hm;
      try discriminate.
    rewrite (dataframe_run _ _ _ _ _ Hm). cbn [snd].
    destruct (rsp_rrv data sampling_rate) as [rrv|e].
    + destruct (find (lacks rrv) RRV_COLUMNS) as [k|] eqn:Hfind.
      * split; [intros [t H]; discriminate|].
        intros [_ [_ [rrv' [Hrrv Hall]]]]. injection Hrrv as <-.
        apply all_columns_present in Hall. congruence.
      * destruct (matching "RSP_Amplitude" data) as [|[ac amplitude] [|c l]].
        -- split; [intros [t H]; discriminate|].
           intros [_ [H _]]. discriminate.
        -- split; [|intros _; eauto].
           intros _. repeat split.
           exists rrv. split; [reflexivity|].
           now apply all_columns_present.
        -- split; [intros [t H]; discriminate|].
           intros [_ [H _]]. discriminate.
    + split; [intros [t H]; discriminate|].
      intros [_ [_ [rrv [Hrrv _]]]]. discriminate.
  - rewrite (dataframe_rejects _ _ _ E). cbn [snd].
    split; [intros [t H]; discriminate|].
    intros [H _]. contradiction.
Qed.

(** X4. On a recording as the model has it (column labels are strings,
    samples are numbers) and with a collaborator whose cells [float]
    accepts, the exceptions the call on one recording can raise are
    these and no other: the rate error, the amplitude error, the
    [KeyError] of one of the fifteen [RRV_] columns, or whatever the
    collaborator raised.  So reading the matched rate or amplitude
    column never fails, and the result variable is always bound.  What
    Python raises on a label that is not a string, or on a cell [float]
    refuses, lies outside these types and outside this statement. *)
Theorem single_recording_errors (data : DataFrame) (sampling_rate : Z)
    (w : world) (e : exn) :
  snd (rsp_intervalrelated (PyDataFrame data) sampling_rate w) = Raise e ->
  e = ValueError rate_error \/
  e = ValueError amplitude_error \/
  (exists m, In m RRV_METRICS /\ e = KeyError ("RRV_" ++ m)) \/
  rsp_rrv data sampling_rate = Raise e.
Proof.
  destruct (Nat.eq_dec (length (matching "RSP_Rate" data)) 1) as [E|E].
  - destruct (matching "RSP_Rate" data) as [|[rc rate] [|c l]] eqn:Hm;
      try discriminate.
    rewrite (dataframe_run _ _ _ _ _ Hm). cbn [snd].
    destruct (rsp_rrv data sampling_rate) as [rrv|e'].
    + destruct (find (lacks rrv) RRV_COLUMNS) as [k|] eqn:Hfind.
      * intros H. injection H as <-. right. right. left.
        destruct (find_some _ _ Hfind) as [Hk _].
        unfold RRV_COLUMNS in Hk. apply in_map_iff in Hk.
        destruct Hk as [m [Hk Hin]]. subst k. now exists m.
      * destruct (matching "RSP_Amplitude" data) as [|[ac amplitude] [|c l]];
          intros H; try discriminate; injection H as <-; tauto.
    + intros H. injection H as <-. tauto.
  - rewrite (dataframe_rejects _ _ _ E). cbn [snd].
    intros H. injection H as <-. tauto.
Qed.

(** ** A collection: what one recording does to the whole call *)

(** The helper, given a dictionary, has one of five outcomes. *)
Lemma formatinput_cases (interval : DataFrame) (o : pydict float64)
    (w : world) :
  (exact_columns interval /\
   exists rate amplitude,
     getitem interval "RSP_Rate" = Some rate /\
     getitem interval "RSP_Amplitude" = Some amplitude /\
     _rsp_intervalrelated_formatinput interval (Some o) w =
       (w, Return (dict_set
                     (dict_set o "RSP_Rate_Mean" (mean (values rate)))
                     "RSP_Amplitude_Mean" (mean (values amplitude))))) \/
  (~ exact_columns interval /\
   exists e,
     _rsp_intervalrelated_formatinput interval (Some o) w = (w, Raise e) /\
     (e = ValueError rate_error \/
      e = ValueError formatinput_amplitude_error \/
      e = KeyError "RSP_Rate" \/
      e = KeyError "RSP_Amplitude")).
Proof.
  rewrite formatinput_run. unfold exact_columns.
  destruct (Nat.eqb_spec (length (matching "RSP_Rate" interval)) 0) as [Er|Er].
  { right. split; [|eexists; split; [reflexivity|tauto]].
    intros [Hr _]. apply length_zero_iff_nil in Er. revert Er.
    now apply (matching_present "RSP_Rate" "RSP_Rate"). }
  destruct (Nat.eqb_spec (length (matching "RSP_Amplitude" interval)) 0)
    as [Ea|Ea].
  { right. split; [|eexists; split; [reflexivity|tauto]].
    intros [_ Ha]. apply length_zero_iff_nil in Ea. revert Ea.
    now apply (matching_present "RSP_Amplitude" "RSP_Amplitude"). }
  destruct (getitem interval "RSP_Rate") as [rate|] eqn:Hr.
  - destruct (getitem interval "RSP_Amplitude") as [amplitude|] eqn:Ha.
    + left. split.
      * split; eapply getitem_some_in; eassumption.
      * now exists rate, amplitude.
    + right. split; [|eexists; split; [reflexivity|tauto]].
      intros [_ H]. destruct (getitem_some _ _ H) as [sel Hsel]. congruence.
  - right. split; [|eexists; split; [reflexivity|tauto]].
    intros [H _]. destruct (getitem_some _ _ H) as [sel Hsel]. congruence.
Qed.

Lemma dict_get_key_in {A} (d : pydict A) (k : string) :
  In k (dict_keys d) -> exists v, dict_get d k = Some v.
Proof.
  induction d as [|[k' v'] d IH]; simpl; intros Hin; [contradiction|].
  destruct (String.eqb k' k) eqn:E; [eauto|].
  destruct Hin as [Hin|Hin]; [|now apply IH].
  subst k'. rewrite String.eqb_refl in E. discriminate.
Qed.

(** One turn of the loop: a rejected recording ends the loop with its
    exception; an accepted one puts its row under its key. *)
Lemma for_index_step (data : pydict DataFrame) (index : string)
    (rest : list string) (intervals : pydict (pydict float64))
    (interval : DataFrame) (w : world) :
  dict_get data index = Some interval ->
  for_index data (index :: rest) intervals w =
  match snd (_rsp_intervalrelated_formatinput interval (Some []) w) with
  | Return row =>
      for_index data rest
        (dict_set (dict_set intervals index []) index row) w
  | Raise e => (w, Raise e)
  end.
Proof.
  intros Hget. simpl. unfold bind, subscript, ret.
  rewrite Hget, dict_get_set_same.
  destruct (formatinput_cases interval [] w)
    as [[_ [rate [amplitude [_ [_ Hrun]]]]]|[_ [e [Hrun _]]]];
    unfold pydict in *; rewrite Hrun; reflexivity.
Qed.

(** X5. On a collection the call changes nothing outside itself, whether
    it returns or raises: the collaborator is not called, the dictionary
    of the helper's default argument is not written.  Its outcome does not
    depend on the sampling rate either, which this branch never reads. *)
Theorem collection_has_no_effect (data : pydict DataFrame)
    (sampling_rate sampling_rate' : Z) (w w' : world) :
  fst (rsp_intervalrelated (PyDict data) sampling_rate w) = w /\
  snd (rsp_intervalrelated (PyDict data) sampling_rate w) =
  snd (rsp_intervalrelated (PyDict data) sampling_rate' w').
Proof.
  destruct (for_index_pure data (dict_keys data) []) as [r Hrun].
  unfold rsp_intervalrelated, recording_collection, bind.
  rewrite !Hrun. destruct r; split; reflexivity.
Qed.

(** The loop stops at the first recording the helper rejects. *)
Lemma collection_stops (pre post : pydict DataFrame) (index : string)
    (interval : DataFrame) (e : exn) (sampling_rate : Z) (w : world) :
  NoDup (dict_keys (pre ++ (index, interval) :: post)) ->
  Forall (fun kv => exact_columns (snd kv)) pre ->
  snd (_rsp_intervalrelated_formatinput interval (Some []) w) = Raise e ->
  rsp_intervalrelated (PyDict (pre ++ (index, interval) :: post))
                      sampling_rate w =
  (w, Raise e).
Proof.
  intros Hnd Hpre He.
  assert (Hloop : forall good before intervals,
             pre = before ++ good ->
             for_index (pre ++ (index, interval) :: post)
                       (dict_keys (good ++ (index, interval) :: post))
                       intervals w = (w, Raise e)).
  { induction good as [|[k df] good IH]; intros before intervals Hsplit.
    - simpl app. simpl dict_keys.
      rewrite (for_index_step _ _ _ _ interval).
      + unfold pydict in *. now rewrite He.
      + apply dict_get_in; [exact Hnd|]. apply in_or_app. right. now left.
    - simpl app. simpl dict_keys.
      rewrite (for_index_step _ _ _ _ df).
      + assert (Hgood : exact_columns df).
        { rewrite Forall_forall in Hpre. apply (Hpre (k, df)).
          rewrite Hsplit. apply in_or_app. right. now left. }
        destruct (formatinput_cases df [] w)
          as [[_ [rate [amplitude [_ [_ Hrun]]]]]|[Hbad _]];
          [|contradiction].
        unfold pydict in Hrun |- *. rewrite Hrun. cbn [snd].
        apply (IH (before ++ [(k, df)])).
        rewrite <- app_assoc. exact Hsplit.
      + apply dict_get_in; [exact Hnd|]. apply in_or_app. left.
        rewrite Hsplit. apply in_or_app. right. now left. }
  unfold rsp_intervalrelated, recording_collection, bind.
  unfold dict_keys at 1. rewrite map_app. fold (dict_keys pre).
  change (map fst ((index, interval) :: post))
    with (dict_keys ((index, interval) :: post)).
  assert (Hk : dict_keys pre ++ dict_keys ((index, interval) :: post) =
               dict_keys (pre ++ (index, interval) :: post))
    by (unfold dict_keys; now rewrite map_app).
  rewrite Hk. rewrite (Hloop pre [] [] eq_refl). reflexivity.
Qed.

(** X6. Fail fast. When the helper rejects a recording of the collection
    and every recording before it holds both exact columns, the call
    raises the helper's exception: the rows of the recordings before are
    dropped, the recordings after are not looked at. *)
Theorem collection_fails_fast (pre post : pydict DataFrame) (index : string)
    (interval : DataFrame) (e : exn) (sampling_rate : Z) (w : world) :
  NoDup (dict_keys (pre ++ (index, interval) :: post)) ->
  Forall (fun kv => exact_columns (snd kv)) pre ->
  snd (_rsp_intervalrelated_formatinput interval (Some []) w) = Raise e ->
  rsp_intervalrelated (PyDict (pre ++ (index, interval) :: post))
                      sampling_rate w =
  (w, Raise e).
Proof. apply collection_stops. Qed.

Lemma first_offender {A} (P : A -> Prop) (l : list A) :
  (forall x, {P x} + {~ P x}) ->
  Forall P l \/
  exists pre x post, l = pre ++ x :: post /\ Forall P pre /\ ~ P x.
Proof.
  intros dec. induction l as [|x l IH]; [left; constructor|].
  destruct (dec x) as [Hx|Hx].
  - destruct IH as [Hall|[pre [y [post [Hl [Hpre Hy]]]]]].
    + left. now constructor.
    + right. exists (x :: pre), y, post. subst l.
      repeat split; [now constructor|exact Hy].
  - right. exists [], x, l. repeat split; [constructor|exact Hx].
Qed.

Lemma exact_columns_dec (interval : DataFrame) :
  {exact_columns interval} + {~ exact_columns interval}.
Proof.
  unfold exact_columns.
  destruct (in_dec string_dec "RSP_Rate" (columns_of interval));
    destruct (in_dec string_dec "RSP_Amplitude" (columns_of interval));
    tauto.
Qed.

(** X7. The call on a collection returns a table exactly when every
    recording has a column named [RSP_Rate] and a column named
    [RSP_Amplitude]: containing the text is enough for the checks, not
    for the call. *)
Theorem collection_returns_iff (data : pydict DataFrame) (sampling_rate : Z)
    (w : world) :
  NoDup (dict_keys data) ->
  ((exists t,
       snd (rsp_intervalrelated (PyDict data) sampling_rate w) = Return t)
   <-> Forall (fun kv => exact_columns (snd kv)) data).
Proof.
  intros Hnd. split.
  - intros [t Ht].
    destruct (first_offender (fun kv => exact_columns (snd kv)) data
                (fun kv => exact_columns_dec (snd kv)))
      as [Hall|[pre [[k bad] [post [Hl [Hpre Hbad]]]]]]; [exact Hall|].
    exfalso. subst data. simpl in Hbad.
    destruct (formatinput_cases bad [] w)
      as [[Hgood _]|[_ [e [Hrun _]]]]; [contradiction|].
    rewrite (collection_stops pre post k bad e sampling_rate w Hnd Hpre)
      in Ht; [discriminate|].
    unfold pydict in *. now rewrite Hrun.
  - intros Hall.
    destruct (for_index_rows w data [] [] Hnd eq_refl Hall)
      as [rows [Hrun _]].
    simpl in Hrun. exists (from_dict_index_nested rows).
    unfold rsp_intervalrelated, recording_collection, bind.
    now rewrite Hrun.
Qed.

Lemma for_index_errors (data : pydict DataFrame) (w : world) (e : exn) :
  forall keys intervals,
    incl keys (dict_keys data) ->
    snd (for_index data keys intervals w) = Raise e ->
    e = ValueError rate_error \/
    e = ValueError formatinput_amplitude_error \/
    e = KeyError "RSP_Rate" \/
    e = KeyError "RSP_Amplitude".
Proof.
  induction keys as [|index keys IH]; intros intervals Hincl Hrun.
  - discriminate.
  - destruct (dict_get_key_in data index) as [interval Hget].
    { apply Hincl. now left. }
    rewrite (for_index_step _ _ _ _ _ _ Hget) in Hrun.
    destruct (formatinput_cases interval [] w)
      as [[_ [rate [amplitude [_ [_ Hf]]]]]|[_ [e' [Hf Hcat]]]];
      unfold pydict in *; rewrite Hf in Hrun; cbn [snd] in Hrun.
    + apply IH in Hrun; [exact Hrun|].
      intros k Hk. apply Hincl. now right.
    + injection Hrun as <-. exact Hcat.
Qed.

(** X8. On a dict whose values are recordings as the model has them
    (DataFrames, column labels strings, samples numbers), the exceptions
    the call can raise are these and no other: the rate error, the
    amplitude error in the helper's wording, and the [KeyError] of the
    column [RSP_Rate] or [RSP_Amplitude].  So looking a key of the
    collection up in the collection never fails, nor does reading back
    the dictionary just stored under it.  What Python raises on a value
    that is not a DataFrame, or on a label that is not a string, lies
    outside these types and outside this statement. *)
Theorem collection_errors (data : pydict DataFrame) (sampling_rate : Z)
    (w : world) (e : exn) :
  snd (rsp_intervalrelated (PyDict data) sampling_rate w) = Raise e ->
  e = ValueError rate_error \/
  e = ValueError formatinput_amplitude_error \/
  e = KeyError "RSP_Rate" \/
  e = KeyError "RSP_Amplitude".
Proof.
  intros Hrun.
  apply (for_index_errors data w e (dict_keys data) []);
    [apply incl_refl|].
  unfold rsp_intervalrelated, recording_collection, bind in Hrun.
  destruct (for_index data (dict_keys data) [] w) as [w1 [rows|e1]];
    [discriminate|].
  cbn [snd] in *. congruence.
Qed.

(** ** One recording, alone and inside a collection *)

Lemma matching_exact (frag : string) (data : DataFrame) c vals :
  str_in frag frag = true ->
  matching frag data = [(c, vals)] ->
  In frag (columns_of data) ->
  c = frag /\ getitem data frag = Some [vals].
Proof.
  intros Hself Hm Hin.
  assert (Hc : c = frag).
  { unfold columns_of in Hin. apply in_map_iff in Hin.
    destruct Hin as [[n vs] [Hn Hin]]. simpl in Hn. subst n.
    assert (H : In (frag, vs) (matching frag data))
      by (apply filter_In; split; [exact Hin|exact Hself]).
    rewrite Hm in H. destruct H as [H|[]]. now injection H. }
  split; [exact Hc|]. subst c. exact (getitem_matching _ _ _ _ Hm).
Qed.

(** X9. A recording both branches accept (one rate column, named
    [RSP_Rate]; one amplitude column, named [RSP_Amplitude]) gets the
    same two means from both: passed inside a collection it yields the
    row (mean of rate, mean of amplitude), and any table the call returns
    for it alone starts with the first and ends with the second. *)
Theorem both_branches_same_means (index : string) (data : DataFrame)
    (sampling_rate : Z) (w : world) rc rate ac amplitude :
  matching "RSP_Rate" data = [(rc, rate)] ->
  matching "RSP_Amplitude" data = [(ac, amplitude)] ->
  exact_columns data ->
  rsp_intervalrelated (PyDict [(index, data)]) sampling_rate w =
    (w, Return (mkTable [LStr index]
                  [LStr "RSP_Rate_Mean"; LStr "RSP_Amplitude_Mean"]
                  [[mean rate; mean amplitude]])) /\
  (forall t,
      snd (rsp_intervalrelated (PyDataFrame data) sampling_rate w) =
        Return t ->
      exists metrics,
        length metrics = 15 /\
        cells t = [mean rate :: metrics ++ [mean amplitude]]).
Proof.
  intros Hr Ha [Her Hea].
  destruct (matching_exact "RSP_Rate" data rc rate eq_refl Hr Her)
    as [_ Hgr].
  destruct (matching_exact "RSP_Amplitude" data ac amplitude eq_refl Ha Hea)
    as [_ Hga].
  split.
  - unfold rsp_intervalrelated, recording_collection, bind.
    simpl dict_keys.
    rewrite (for_index_step _ _ _ _ data)
      by (simpl; now rewrite String.eqb_refl).
    destruct (formatinput_cases data [] w)
      as [[_ [rate' [amplitude' [Hgr' [Hga' Hrun]]]]]|[Hbad _]];
      [|exfalso; apply Hbad; split; assumption].
    rewrite Hgr in Hgr'. rewrite Hga in Hga'.
    injection Hgr' as <-. injection Hga' as <-.
    unfold pydict in *. rewrite Hrun.
    simpl. rewrite !String.eqb_refl. reflexivity.
  - intros t Ht. rewrite (dataframe_run _ _ _ _ _ Hr), Ha in Ht.
    cbn [snd] in Ht.
    destruct (rsp_rrv data sampling_rate) as [rrv|e]; [|discriminate].
    destruct (find (lacks rrv) RRV_COLUMNS); [discriminate|].
    injection Ht as <-.
    exists (map (metric rrv) RRV_COLUMNS). split; reflexivity.
Qed.

(** ** The default argument of the helper *)

Lemma dict_get_set_other {A} (d : pydict A) (k k' : string) (v : A) :
  k <> k' -> dict_get (dict_set d k' v) k = dict_get d k.
Proof.
  intros Hk. induction d as [|[k0 v0] d IH]; simpl.
  - destruct (String.eqb_spec k' k); [congruence|reflexivity].
  - destruct (String.eqb_spec k0 k') as [E|E]; simpl.
    + subst k0. destruct (String.eqb_spec k' k); [congruence|reflexivity].
    + destruct (String.eqb k0 k); [reflexivity|exact IH].
Qed.

(** X10. Called without [output], the helper works on the one dictionary
    of its default argument: what it returns is that dictionary as now
    stored; it holds the two means of this recording; and every other key
    a former call left in it is still there with its value. *)
Theorem formatinput_default_accumulates (interval : DataFrame) (w : world)
    rate amplitude :
  getitem interval "RSP_Rate" = Some rate ->
  getitem interval "RSP_Amplitude" = Some amplitude ->
  exists d,
    _rsp_intervalrelated_formatinput interval None w =
      (mkWorld (rrv_calls w) d, Return d) /\
    dict_get d "RSP_Rate_Mean" = Some (mean (values rate)) /\
    dict_get d "RSP_Amplitude_Mean" = Some (mean (values amplitude)) /\
    forall k, k <> "RSP_Rate_Mean" -> k <> "RSP_Amplitude_Mean" ->
              dict_get d k = dict_get (formatinput_default w) k.
Proof.
  intros Hr Ha.
  exists (dict_set (dict_set (formatinput_default w)
                             "RSP_Rate_Mean" (mean (values rate)))
                   "RSP_Amplitude_Mean" (mean (values amplitude))).
  split; [|split; [|split]].
  - unfold _rsp_intervalrelated_formatinput. rewrite !count_matching.
    destruct (matching "RSP_Rate" interval) eqn:Hmr.
    { exfalso. revert Hmr.
      apply (matching_present "RSP_Rate" "RSP_Rate"); [reflexivity|].
      exact (getitem_some_in _ _ _ Hr). }
    destruct (matching "RSP_Amplitude" interval) eqn:Hma.
    { exfalso. revert Hma.
      apply (matching_present "RSP_Amplitude" "RSP_Amplitude");
        [reflexivity|].
      exact (getitem_some_in _ _ _ Ha). }
    simpl. unfold bind, subscript. rewrite Hr, Ha. reflexivity.
  - rewrite dict_get_set_other by discriminate. apply dict_get_set_same.
  - apply dict_get_set_same.
  - intros k H1 H2. now rewrite !dict_get_set_other.
Qed.

(** X11. A call the helper refuses writes nothing: with or without
    [output], the world, and so the dictionary of the default argument,
    is what it was. *)
Theorem formatinput_failure_writes_nothing (interval : DataFrame)
    (output : option (pydict float64)) (w : world) (e : exn) :
  snd (_rsp_intervalrelated_formatinput interval output w) = Raise e ->
  fst (_rsp_intervalrelated_formatinput interval output w) = w.
Proof.
  unfold _rsp_intervalrelated_formatinput.
  destruct (Nat.eqb _ 0); [reflexivity|].
  destruct (Nat.eqb _ 0); [reflexivity|].
  unfold bind, subscript.
  destruct (getitem interval "RSP_Rate"); [|reflexivity].
  simpl. destruct (getitem interval "RSP_Amplitude"); [|reflexivity].
  simpl. destruct output; simpl; [reflexivity|discriminate].
Qed.

End Coverage.

(** * The further properties on concrete recordings *)

Module CoverageWitnesses.
Import Exact.

Lemma collaborator_called_once_witness :
  rrv_calls (fst (@rsp_intervalrelated exact zeros
                    (PyDataFrame rec_no_amplitude) 1000 w0)) =
  [(rec_no_amplitude, 1000%Z)].
Proof.
  exact (proj1 (@collaborator_called_once exact zeros rec_no_amplitude
                  1000 w0 eq_refl)).
Defined.

Lemma single_recording_returns_iff_witness :
  exists t,
    snd (@rsp_intervalrelated exact zeros (PyDataFrame rec_example) 1000 w0) =
    Return t.
Proof.
  apply (proj2 (@single_recording_returns_iff exact zeros rec_example
                  1000 w0)).
  split; [reflexivity|]. split; [reflexivity|].
  exists (map (fun k => (k, Num 0)) RRV_COLUMNS). split; [reflexivity|].
  intros m Hm. simpl in Hm.
  repeat (destruct Hm as [Hm|Hm]; [subst m; discriminate|]).
  contradiction.
Defined.

Lemma single_recording_errors_witness :
  KeyError "RRV_DFA" = ValueError rate_error \/
  KeyError "RRV_DFA" = ValueError amplitude_error \/
  (exists m, In m RRV_METRICS /\ KeyError "RRV_DFA" = KeyError ("RRV_" ++ m)) \/
  @rsp_rrv exact omitting rec_example 1000 = Raise (KeyError "RRV_DFA").
Proof.
  exact (@single_recording_errors exact omitting rec_example 1000 w0
           (KeyError "RRV_DFA") eq_refl).
Defined.

Lemma collection_fails_fast_witness :
  @rsp_intervalrelated exact zeros
    (PyDict ([("1", rec_example)] ++ ("2", rec_no_rate)
                                  :: [("3", rec_example)])) 1000 w0 =
  (w0, Raise (ValueError rate_error)).
Proof.
  apply (@collection_fails_fast exact zeros
           [("1", rec_example)] [("3", rec_example)] "2" rec_no_rate
           (ValueError rate_error) 1000 w0).
  - repeat constructor; simpl; intuition discriminate.
  - repeat constructor; simpl; tauto.
  - reflexivity.
Defined.

Lemma collection_returns_iff_witness :
  exists t,
    snd (@rsp_intervalrelated exact zeros (PyDict epochs_example) 1000 w0) =
    Return t.
Proof.
  apply (proj2 (@collection_returns_iff exact zeros epochs_example 1000 w0
                  ltac:(repeat constructor; simpl; intuition discriminate))).
  repeat constructor; simpl; tauto.
Defined.

Lemma collection_errors_witness :
  KeyError "RSP_Rate" = ValueError rate_error \/
  KeyError "RSP_Rate" = ValueError formatinput_amplitude_error \/
  KeyError "RSP_Rate" = KeyError "RSP_Rate" \/
  KeyError "RSP_Rate" = KeyError "RSP_Amplitude".
Proof.
  exact (@collection_errors exact zeros [("1", rec_alt_only)] 1000 w0
           (KeyError "RSP_Rate") eq_refl).
Defined.

Lemma both_branches_same_means_witness :
  @rsp_intervalrelated exact zeros (PyDict [("1", rec_example)]) 1000 w0 =
  (w0, Return (@mkTable exact [LStr "1"]
                 [LStr "RSP_Rate_Mean"; LStr "RSP_Amplitude_Mean"]
                 [[Num 12; Num (3 # 5)]])).
Proof.
  exact (proj1 (@both_branches_same_means exact zeros "1" rec_example 1000 w0
                  "RSP_Rate" [Num 10; Num 12; Num 14]
                  "RSP_Amplitude" [Num (5 # 10); Num (7 # 10); Num (6 # 10)]
                  eq_refl eq_refl
                  ltac:(split; simpl; tauto))).
Defined.

Lemma formatinput_default_accumulates_witness :
  exists d,
    @_rsp_intervalrelated_formatinput exact rec_example None
      (@mkWorld exact [] [("Kept", Num 1)]) =
      (@mkWorld exact [] d, Return d) /\
    dict_get d "RSP_Rate_Mean" = Some (Num 12) /\
    dict_get d "Kept" = Some (Num 1).
Proof.
  destruct (@formatinput_default_accumulates exact rec_example
              (@mkWorld exact [] [("Kept", Num 1)])
              [[Num 10; Num 12; Num 14]]
              [[Num (5 # 10); Num (7 # 10); Num (6 # 10)]]
              eq_refl eq_refl)
    as [d [Hrun [Hrate [_ Hother]]]].
  exists d. split; [exact Hrun|]. split; [exact Hrate|].
  rewrite (Hother "Kept"); [reflexivity|discriminate|discriminate].
Defined.

Lemma formatinput_failure_writes_nothing_witness :
  fst (@_rsp_intervalrelated_formatinput exact rec_no_rate None
         (@mkWorld exact [] [("Kept", Num 1)])) =
  @mkWorld exact [] [("Kept", Num 1)].
Proof.
  exact (@formatinput_failure_writes_nothing exact rec_no_rate None
           (@mkWorld exact [] [("Kept", Num 1)])
           (ValueError rate_error) eq_refl).
Defined.

End CoverageWitnesses.
